(** * clinicaio: file types, preprocessing configurations and CAPS paths

    A shallow embedding of [clinicaio/file_type.py], [clinicaio/preprocessing.py]
    and the path construction of [clinicaio/main.py], with the properties of
    the configuration hierarchy, the registry and the reader proved about it.

    Python strings are modelled by [string]; a non-ASCII character is the
    sequence of its UTF-8 bytes, which leaves substring tests unchanged.
    Exceptions are modelled by an error monad. *)

From Stdlib Require Import String Ascii List Bool Arith.
Import ListNotations.
Local Open Scope string_scope.

(** ** Python values: exceptions and string primitives *)

Module Py.

(** The exception classes raised by the modelled code.  [ValidationError]
    is pydantic's: it wraps a [ValueError] raised by a field validator and
    records the field it belongs to.  The classes of
    [clinicaio/exceptions.py] are raised by none of the functions below. *)
Inductive exception : Type :=
| IndexError (msg : string)
| ValueError (msg : string)
| NotImplementedError (msg : string)
| ValidationError (field msg : string).

(** A computation that returns a value or raises. *)
Inductive result (A : Type) : Type :=
| Ok (a : A)
| Raise (e : exception).
Arguments Ok {A} a.
Arguments Raise {A} e.

Definition bind {A B : Type} (m : result A) (k : A -> result B) : result B :=
  match m with
  | Ok a => k a
  | Raise e => Raise e
  end.

Definition is_ok {A : Type} (m : result A) : bool :=
  match m with
  | Ok _ => true
  | Raise _ => false
  end.

(** [s[i]] for a non-negative index. *)
Fixpoint getitem (s : string) (i : nat) : result ascii :=
  match s, i with
  | EmptyString, _ => Raise (IndexError "string index out of range")
  | String c _, O => Ok c
  | String _ s', S j => getitem s' j
  end.

(** [s.startswith(p)]. *)
Definition startswith (p s : string) : bool := String.prefix p s.

(** [needle in s]. *)
Fixpoint contains (needle s : string) : bool :=
  String.prefix needle s
  || match s with
     | EmptyString => false
     | String _ s' => contains needle s'
     end.

(** [c in s] for a single character. *)
Fixpoint mem_char (c : ascii) (s : string) : bool :=
  match s with
  | EmptyString => false
  | String d s' => Ascii.eqb c d || mem_char c s'
  end.

Fixpoint map_chars (f : ascii -> ascii) (s : string) : string :=
  match s with
  | EmptyString => EmptyString
  | String c s' => String (f c) (map_chars f s')
  end.

Fixpoint all_chars (p : ascii -> bool) (s : string) : bool :=
  match s with
  | EmptyString => true
  | String c s' => p c && all_chars p s'
  end.

(** [s.replace(old, new)] for a non-empty [old]: occurrences are replaced
    from left to right and do not overlap.  [skip] counts the characters
    of the occurrence being replaced that are still to be dropped. *)
Fixpoint replace_from (old new s : string) (skip : nat) : string :=
  match s with
  | EmptyString => EmptyString
  | String c s' =>
      match skip with
      | S k => replace_from old new s' k
      | O =>
          if String.prefix old s
          then new ++ replace_from old new s' (String.length old - 1)
          else String c (replace_from old new s' 0)
      end
  end.

(** With an empty [old], [new] is inserted before every character and at
    the end. *)
Fixpoint intersperse (new s : string) : string :=
  match s with
  | EmptyString => new
  | String c s' => new ++ String c (intersperse new s')
  end.

Definition replace (old new s : string) : string :=
  match old with
  | EmptyString => intersperse new s
  | String _ _ => replace_from old new s 0
  end.

(** Letters and digits of ASCII. *)
Definition is_alnum (c : ascii) : bool :=
  let n := nat_of_ascii c in
  (((48 <=? n) && (n <=? 57)) || ((65 <=? n) && (n <=? 90))
   || ((97 <=? n) && (n <=? 122)))%nat.

(** [s.split(sep)] for a one-character separator. *)
Fixpoint split (sep : ascii) (s : string) : list string :=
  match s with
  | EmptyString => [EmptyString]
  | String c s' =>
      if Ascii.eqb c sep then EmptyString :: split sep s'
      else match split sep s' with
           | h :: t => String c h :: t
           | [] => [String c EmptyString]
           end
  end.

(** [sep.join(l)]. *)
Fixpoint join (sep : string) (l : list string) : string :=
  match l with
  | [] => EmptyString
  | [x] => x
  | x :: l' => x ++ sep ++ join sep l'
  end.

End Py.
Import Py.

Declare Scope py_scope.
Delimit Scope py_scope with py.
Notation "x <- m ;; k" := (bind m (fun x => k))
  (at level 61, m at next level, right associativity) : py_scope.
Local Open Scope py_scope.

(** ** [clinicaio/file_type.py] *)

Record FileType : Type := mkFileType {
  pattern : string;
  description : string;
  needed_pipeline : option string
}.

Module FileTypeModel.

Definition check_pattern_message : string :=
  "pattern argument cannot start with char: / (does not work in os.path.join function). "
  ++ "If you want to indicate the exact name of the file, use the format "
  ++ "directory_name/filename.extension or filename.extension in the pattern argument.".

(** The [before] validator of the field [pattern]. *)
Definition check_pattern (v : string) : result string :=
  c <- getitem v 0 ;;
  if Ascii.eqb c "/" then Raise (ValueError check_pattern_message)
  else Ok v.

(** [FileType(pattern=..., description=..., needed_pipeline=...)]: pydantic
    runs the validator and turns the [ValueError] it raises into a
    [ValidationError] of the field; any other exception goes through
    unchanged. *)
Definition new (pattern description : string)
    (needed_pipeline : option string) : result FileType :=
  match check_pattern pattern with
  | Ok v => Ok (mkFileType v description needed_pipeline)
  | Raise (ValueError msg) => Raise (ValidationError "pattern" msg)
  | Raise e => Raise e
  end.

End FileTypeModel.

(** ** The enumerations of [clinicaio/enum.py]

    The module is imported by [preprocessing.py] and [main.py]; the members
    below are the ones these two files name.  Each enumeration is a module,
    so that a member reads as in the source ([Preprocessing.T1_LINEAR]). *)

Module Preprocessing.

(** Modelled from the spec: the [Preprocessing] enumeration of the absent
    [clinicaio/enum.py].  The spec gives it as the closed set of the six
    tags that the code names, a member being interchangeable with its
    string; the strings are the hyphenated pipeline tags, of which the code
    spells [pet-linear] and the spec [t1_linear] in its underscore form. *)
Inductive t : Type :=
| T1_LINEAR
| T2_LINEAR
| FLAIR_LINEAR
| PET_LINEAR
| CUSTOM
| DWI_DTI.

Definition value (p : t) : string :=
  match p with
  | T1_LINEAR => "t1-linear"
  | T2_LINEAR => "t2-linear"
  | FLAIR_LINEAR => "flair-linear"
  | PET_LINEAR => "pet-linear"
  | CUSTOM => "custom"
  | DWI_DTI => "dwi-dti"
  end.

Definition members : list t :=
  [T1_LINEAR; T2_LINEAR; FLAIR_LINEAR; PET_LINEAR; CUSTOM; DWI_DTI].

Definition eqb (a b : t) : bool :=
  match a, b with
  | T1_LINEAR, T1_LINEAR
  | T2_LINEAR, T2_LINEAR
  | FLAIR_LINEAR, FLAIR_LINEAR
  | PET_LINEAR, PET_LINEAR
  | CUSTOM, CUSTOM
  | DWI_DTI, DWI_DTI => true
  | _, _ => false
  end.

(** [x in cls] for an enumeration class whose member table is [table]. *)
Definition contains_in (table : list t) (x : t) : bool :=
  existsb (eqb x) table.

(** [x in Preprocessing]. *)
Definition contains (x : t) : bool := contains_in members x.

(** An argument of type [Union[str, Preprocessing]]. *)
Inductive like : Type :=
| OfStr (s : string)
| OfEnum (p : t).

(** Modelled from the spec: the call [Preprocessing(x)] of the absent enum
    module.  It normalizes an identifier to the enum type and fails with a
    value error if the string is not a recognized tag. *)
Definition call (x : like) : result t :=
  match x with
  | OfEnum p => Ok p
  | OfStr s =>
      match find (fun p => String.eqb (value p) s) members with
      | Some p => Ok p
      | None => Raise (ValueError ("'" ++ s ++ "' is not a valid Preprocessing"))
      end
  end.

End Preprocessing.

(** The modality tags named by [caps_nii]. *)
Module LinearModality.
Inductive t : Type := T1W | T2W | FLAIR.
End LinearModality.

Module ImageModality.
Inductive t : Type := PET | CUSTOM | DWI.
End ImageModality.

Inductive Modality : Type :=
| Linear (m : LinearModality.t)
| Image (m : ImageModality.t).

(** Modelled from the spec: the enumerations [Tracer], [SUVRReferenceRegions],
    [DTIMeasure] and [DTISpace] of the absent enum module.  The spec names
    their members by the string they stand for (a tracer [FDG]) and has the
    patterns embed that string as it is, so a member is represented by its
    string. *)
Module Tracer.
Record t : Type := mk { value : string }.
(** Truth value of a string-valued member, as tested by [if self.tracer]. *)
Definition truth (x : t) : bool := negb (String.eqb (value x) "").
End Tracer.

Module SUVRReferenceRegions.
Record t : Type := mk { value : string }.
End SUVRReferenceRegions.

Module DTIMeasure.
Record t : Type := mk { value : string }.
End DTIMeasure.

Module DTISpace.
Record t : Type := mk { value : string }.
End DTISpace.

(** What the code reads from the enum module and neither the sources nor the
    spec fix: the strings of the modality tags, the text an f-string gives
    for a [DTISpace] member, and the four members used as field defaults. *)
Record EnumModule : Type := mkEnumModule {
  LinearModality_value : LinearModality.t -> string;
  ImageModality_value : ImageModality.t -> string;
  DTISpace_format : DTISpace.t -> string;
  Tracer_FFDG : Tracer.t;
  SUVRReferenceRegions_CEREBELLUMPONS2 : SUVRReferenceRegions.t;
  DTIMeasure_FRACTIONAL_ANISOTROPY : DTIMeasure.t;
  DTISpace_ALL : DTISpace.t
}.

Definition Modality_value (E : EnumModule) (m : Modality) : string :=
  match m with
  | Linear l => LinearModality_value E l
  | Image i => ImageModality_value E i
  end.

(** Truth value of an optional string, as tested by [if reconstruction]. *)
Definition str_truth (s : option string) : bool :=
  match s with
  | None => false
  | Some v => negb (String.eqb v "")
  end.

(** ** [clinicaio/preprocessing.py] *)

(** The fields every configuration has. *)
Record BaseFields : Type := mkBaseFields {
  from_bids : bool;
  preprocessing : Preprocessing.t;
  use_uncropped_image : bool
}.

(** The concrete subclasses of [PreprocessingConfig], each with the fields it
    adds.  Any field can be given at construction, [preprocessing] included:
    its class default is only a default. *)
Inductive PreprocessingConfig : Type :=
| PETPreprocessingConfig (base : BaseFields) (tracer : Tracer.t)
    (suvr_reference_region : SUVRReferenceRegions.t)
| CustomPreprocessingConfig (base : BaseFields) (custom_suffix : string)
| DTIPreprocessingConfig (base : BaseFields) (dti_measure : DTIMeasure.t)
    (dti_space : DTISpace.t)
| T1PreprocessingConfig (base : BaseFields)
| FlairPreprocessingConfig (base : BaseFields)
| T2PreprocessingConfig (base : BaseFields).

Definition fields (self : PreprocessingConfig) : BaseFields :=
  match self with
  | PETPreprocessingConfig b _ _
  | CustomPreprocessingConfig b _
  | DTIPreprocessingConfig b _ _
  | T1PreprocessingConfig b
  | FlairPreprocessingConfig b
  | T2PreprocessingConfig b => b
  end.

(** The classes themselves, as [get_preprocessing] returns them. *)
Inductive ConfigClass : Type :=
| PETPreprocessingConfig_cls
| CustomPreprocessingConfig_cls
| DTIPreprocessingConfig_cls
| T1PreprocessingConfig_cls
| FlairPreprocessingConfig_cls
| T2PreprocessingConfig_cls.

Definition crop_qualifier : string := "_desc-Crop".

Definition crop_dimension_text : string :=
  "and cropped (matrix size 169×208×179, 1 mm isotropic voxels)".

(** The characters that set the crop-dimension text apart: the comma, the
    parenthesis and the first byte of the multiplication sign. *)
Definition crop_text_marks : list ascii :=
  [","%char; "("%char; ascii_of_nat 195].

Section Configurations.

Variable E : EnumModule.

(** [cls()]: every field takes its default. *)
Definition instantiate (cls : ConfigClass) : PreprocessingConfig :=
  match cls with
  | PETPreprocessingConfig_cls =>
      PETPreprocessingConfig (mkBaseFields false Preprocessing.PET_LINEAR false)
        (Tracer_FFDG E) (SUVRReferenceRegions_CEREBELLUMPONS2 E)
  | CustomPreprocessingConfig_cls =>
      CustomPreprocessingConfig (mkBaseFields false Preprocessing.CUSTOM false) ""
  | DTIPreprocessingConfig_cls =>
      DTIPreprocessingConfig (mkBaseFields false Preprocessing.DWI_DTI false)
        (DTIMeasure_FRACTIONAL_ANISOTROPY E) (DTISpace_ALL E)
  | T1PreprocessingConfig_cls =>
      T1PreprocessingConfig (mkBaseFields false Preprocessing.T1_LINEAR false)
  | FlairPreprocessingConfig_cls =>
      FlairPreprocessingConfig (mkBaseFields false Preprocessing.FLAIR_LINEAR false)
  | T2PreprocessingConfig_cls =>
      T2PreprocessingConfig (mkBaseFields false Preprocessing.T2_LINEAR false)
  end.

Definition bids_nii (self : PreprocessingConfig) (reconstruction : option string)
  : result FileType :=
  match self with
  | PETPreprocessingConfig _ tracer _ =>
      let '(trc, description) :=
        if Tracer.truth tracer
        then ("_trc-" ++ Tracer.value tracer,
              "PET data" ++ " with " ++ Tracer.value tracer ++ " tracer")
        else ("", "PET data") in
      let '(rec, description) :=
        match reconstruction with
        | Some r =>
            if str_truth reconstruction
            then ("_rec-" ++ r,
                  description ++ " and reconstruction method " ++ r)
            else ("", description)
        | None => ("", description)
        end in
      FileTypeModel.new ("pet/*" ++ trc ++ rec ++ "_pet.nii*") description None
  | CustomPreprocessingConfig _ custom_suffix =>
      FileTypeModel.new ("*" ++ custom_suffix) "Custom suffix" None
  | DTIPreprocessingConfig _ _ _ =>
      FileTypeModel.new "dwi/sub-*_ses-*_dwi.nii*" "DWI NIfTI" None
  | T1PreprocessingConfig _ =>
      FileTypeModel.new "anat/sub-*_ses-*_T1w.nii*" "T1w MRI" None
  | FlairPreprocessingConfig _ =>
      FileTypeModel.new "sub-*_ses-*_flair.nii*" "FLAIR T2w MRI" None
  | T2PreprocessingConfig b =>
      Raise (NotImplementedError
               ("Extraction of preprocessing " ++ Preprocessing.value (preprocessing b)
                ++ " is not implemented from BIDS directory."))
  end.

Definition caps_nii (self : PreprocessingConfig) : Preprocessing.t * Modality :=
  match self with
  | PETPreprocessingConfig b _ _ => (preprocessing b, Image ImageModality.PET)
  | CustomPreprocessingConfig b _ => (preprocessing b, Image ImageModality.CUSTOM)
  | DTIPreprocessingConfig b _ _ => (preprocessing b, Image ImageModality.DWI)
  | T1PreprocessingConfig b => (preprocessing b, Linear LinearModality.T1W)
  | FlairPreprocessingConfig b => (preprocessing b, Linear LinearModality.T2W)
  | T2PreprocessingConfig b => (preprocessing b, Linear LinearModality.FLAIR)
  end.

(** The file type of a linear CAPS image.  [needed_pipeline] receives the
    enum member, which the string field stores as its string. *)
Definition linear_nii (self : PreprocessingConfig) : result FileType :=
  let '(needed_pipeline, modality) := caps_nii self in
  let desc_crop :=
    if use_uncropped_image (fields self) then "" else crop_qualifier in
  FileTypeModel.new
    ("*space-MNI152NLin2009cSym" ++ desc_crop ++ "_res-1x1x1_"
     ++ Modality_value E modality ++ ".nii.gz")
    ((Modality_value E modality ++ " Image registered in MNI152NLin2009cSym space using "
      ++ Preprocessing.value needed_pipeline ++ " pipeline ")
     ++ (if use_uncropped_image (fields self) then "" else crop_dimension_text))
    (Some (Preprocessing.value needed_pipeline)).

Definition get_filetype (self : PreprocessingConfig) : result FileType :=
  match self with
  | PETPreprocessingConfig b tracer suvr_reference_region =>
      let des_crop := if use_uncropped_image b then "" else crop_qualifier in
      FileTypeModel.new
        ("pet_linear/*_trc-" ++ Tracer.value tracer ++ "_space-MNI152NLin2009cSym"
         ++ des_crop ++ "_res-1x1x1_suvr-"
         ++ SUVRReferenceRegions.value suvr_reference_region ++ "_pet.nii.gz")
        "" (Some "pet-linear")
  | CustomPreprocessingConfig _ _ => bids_nii self None
  | DTIPreprocessingConfig _ measure space =>
      FileTypeModel.new
        ("dwi/dti_based_processing/*/*_space-" ++ DTISpace_format E space ++ "_"
         ++ DTIMeasure.value measure ++ ".nii.gz")
        ("DTI-based " ++ DTIMeasure.value measure ++ " in space "
         ++ DTISpace_format E space ++ ".")
        (Some "dwi_dti")
  | T1PreprocessingConfig _
  | FlairPreprocessingConfig _
  | T2PreprocessingConfig _ => linear_nii self
  end.

Definition compute_folder (self : PreprocessingConfig) (from_bids : bool)
  : string :=
  if from_bids then Preprocessing.value (preprocessing (fields self))
  else replace "-" "_" (Preprocessing.value (preprocessing (fields self))).

(** The computed field [file_type]; [table] is the member table that the
    test [self.preprocessing not in Preprocessing] consults. *)
Definition file_type_in (table : list Preprocessing.t)
    (self : PreprocessingConfig) : result FileType :=
  if from_bids (fields self) then bids_nii self None
  else if negb (Preprocessing.contains_in table (preprocessing (fields self)))
  then Raise (NotImplementedError
                ("Extraction of preprocessing "
                 ++ Preprocessing.value (preprocessing (fields self))
                 ++ " is not implemented from CAPS directory."))
  else get_filetype self.

Definition file_type (self : PreprocessingConfig) : result FileType :=
  file_type_in Preprocessing.members self.

End Configurations.

Definition get_preprocessing (preprocessing_type : Preprocessing.like)
  : result ConfigClass :=
  preprocessing_type <- Preprocessing.call preprocessing_type ;;
  if Preprocessing.eqb preprocessing_type Preprocessing.T1_LINEAR
  then Ok T1PreprocessingConfig_cls
  else if Preprocessing.eqb preprocessing_type Preprocessing.PET_LINEAR
  then Ok PETPreprocessingConfig_cls
  else if Preprocessing.eqb preprocessing_type Preprocessing.FLAIR_LINEAR
  then Ok FlairPreprocessingConfig_cls
  else if Preprocessing.eqb preprocessing_type Preprocessing.CUSTOM
  then Ok CustomPreprocessingConfig_cls
  else if Preprocessing.eqb preprocessing_type Preprocessing.DWI_DTI
  then Ok DTIPreprocessingConfig_cls
  else Raise (ValueError
                ("Preprocessing " ++ Preprocessing.value preprocessing_type
                 ++ " is not implemented.")).

(** ** Paths: the part of [pathlib.PurePosixPath] that [main.py] uses *)

Module PurePath.

(** A path is its root ([""], ["/"] or ["//"]) and the names below it. *)
Record t : Type := mk {
  root : string;
  tail : list string
}.

(** [s[n:]]. *)
Fixpoint drop (n : nat) (s : string) : string :=
  match n, s with
  | O, _ => s
  | S _, EmptyString => EmptyString
  | S k, String _ s' => drop k s'
  end.

(** [posixpath.splitroot], without the drive, which is always empty: exactly
    two leading slashes are a root of their own. *)
Definition splitroot (p : string) : string * string :=
  if negb (startswith "/" p) then ("", p)
  else if negb (startswith "/" (drop 1 p)) || startswith "/" (drop 2 p)
  then ("/", drop 1 p)
  else ("//", drop 2 p).

(** The names of a relative path text: empty names and ["."] are dropped. *)
Definition names (rel : string) : list string :=
  filter (fun x => negb (String.eqb x "") && negb (String.eqb x "."))
         (split "/" rel).

(** [PurePosixPath(raw)]. *)
Definition parse (raw : string) : t :=
  let '(r, rel) := splitroot raw in
  mk r (names rel).

(** [self / key] for a string [key]: an absolute [key] replaces [self], as
    in [posixpath.join]; otherwise its names are appended. *)
Definition joinpath (self : t) (key : string) : t :=
  if startswith "/" key then parse key
  else mk (root self) (tail self ++ names key).

(** [str(self)]. *)
Definition as_posix (self : t) : string :=
  match root self, tail self with
  | EmptyString, [] => "."
  | r, l => r ++ join "/" l
  end.

End PurePath.

Declare Scope path_scope.
Delimit Scope path_scope with path.
Notation "p / key" := (PurePath.joinpath p key) : path_scope.

(** ** [clinicaio/main.py] *)

(** A reader that has been constructed: [check_caps_folder], which the
    constructor calls first, lives outside the sources and has accepted the
    directory. *)
Record CapsReader : Type := mkCapsReader {
  input_directory : PurePath.t
}.

Definition preprocessing_folder (self : CapsReader) (subject session : string)
    (preprocessing : Preprocessing.t) : PurePath.t :=
  (input_directory self / "subjects" / subject / session
   / replace "-" "_" (Preprocessing.value preprocessing))%path.

(** [CapsReader.get_preprocessing]: registry lookup, then default
    construction. *)
Definition CapsReader_get_preprocessing (E : EnumModule)
    (preprocessing : Preprocessing.like) : result PreprocessingConfig :=
  cls <- get_preprocessing preprocessing ;;
  Ok (instantiate E cls).

(** ** Statements of the specification that are compared with the code *)

(** The folder as the specification words it, the concatenation
    [root/subjects/<subject>/<session>/<tag with underscores>]: the root
    directory extended by these four entries, in this order. *)
Definition concatenated_folder (root_dir : PurePath.t) (subject session : string)
    (preprocessing : Preprocessing.t) : PurePath.t :=
  PurePath.mk (PurePath.root root_dir)
    (PurePath.tail root_dir
     ++ flat_map PurePath.names
          ["subjects"; subject; session;
           map_chars (fun c => if Ascii.eqb c "-" then "_"%char else c)
             (Preprocessing.value preprocessing)]).

(** Two strings differ only by hyphen against underscore: they have the same
    length and, position by position, the same character or a hyphen in the
    first where the second has an underscore. *)
Fixpoint hyphen_underscore (a b : string) : Prop :=
  match a, b with
  | EmptyString, EmptyString => True
  | String x a', String y b' =>
      (x = y \/ (x = "-"%char /\ y = "_"%char)) /\ hyphen_underscore a' b'
  | _, _ => False
  end.

(** The enum strings used to run the statements on concrete inputs: the
    modality strings are the file-name suffixes of the raw-layout patterns
    ([T1w], [flair]). *)
Definition sample_enum : EnumModule :=
  mkEnumModule
    (fun m => match m with
              | LinearModality.T1W => "T1w"
              | LinearModality.T2W => "T2w"
              | LinearModality.FLAIR => "flair"
              end)
    (fun m => match m with
              | ImageModality.PET => "pet"
              | ImageModality.CUSTOM => "custom"
              | ImageModality.DWI => "dwi"
              end)
    DTISpace.value
    (Tracer.mk "18FFDG")
    (SUVRReferenceRegions.mk "cerebellumPons2")
    (DTIMeasure.mk "FA")
    (DTISpace.mk "*").

(** ** Assignment to a field and the class test

    The configurations validate assignments, so a field takes any value of
    its type. *)

Definition set_base (f : BaseFields -> BaseFields) (self : PreprocessingConfig)
  : PreprocessingConfig :=
  match self with
  | PETPreprocessingConfig b t r => PETPreprocessingConfig (f b) t r
  | CustomPreprocessingConfig b s => CustomPreprocessingConfig (f b) s
  | DTIPreprocessingConfig b m s => DTIPreprocessingConfig (f b) m s
  | T1PreprocessingConfig b => T1PreprocessingConfig (f b)
  | FlairPreprocessingConfig b => FlairPreprocessingConfig (f b)
  | T2PreprocessingConfig b => T2PreprocessingConfig (f b)
  end.

(** [self.from_bids = v]. *)
Definition set_from_bids (v : bool) : PreprocessingConfig -> PreprocessingConfig :=
  set_base (fun b => mkBaseFields v (preprocessing b) (use_uncropped_image b)).

(** [self.preprocessing = v]. *)
Definition set_preprocessing (v : Preprocessing.t)
  : PreprocessingConfig -> PreprocessingConfig :=
  set_base (fun b => mkBaseFields (from_bids b) v (use_uncropped_image b)).

(** [self.use_uncropped_image = v]. *)
Definition set_use_uncropped_image (v : bool)
  : PreprocessingConfig -> PreprocessingConfig :=
  set_base (fun b => mkBaseFields (from_bids b) (preprocessing b) v).

(** [isinstance(self, T2PreprocessingConfig)]. *)
Definition is_T2 (self : PreprocessingConfig) : bool :=
  match self with
  | T2PreprocessingConfig _ => true
  | _ => false
  end.

(** ** [clinicaio/exceptions.py]

    The classes of the file with the bases it gives them, and the built-in
    classes that the modelled code raises with theirs; pydantic's
    [ValidationError] derives from [ValueError]. *)

Module ExceptionClass.

Inductive t : Type :=
| Exception
| LookupError
| IndexError
| RuntimeError
| NotImplementedError
| ValueError
| ValidationError
| DownloadError
| ClinicaIOArgumentError
| ClinicaIOConfigurationError
| ClinicaIOException
| MAPSError
| ClinicaIONetworksError
| ClinicaIODataLeakageError
| ClinicaIOTSVError
| ClinicaIOBIDSError
| ClinicaIOCAPSError
| ClinicaIOConcatError.

(** The classes that [exceptions.py] defines. *)
Definition defined : list t :=
  [DownloadError; ClinicaIOArgumentError; ClinicaIOConfigurationError;
   ClinicaIOException; MAPSError; ClinicaIONetworksError;
   ClinicaIODataLeakageError; ClinicaIOTSVError; ClinicaIOBIDSError;
   ClinicaIOCAPSError; ClinicaIOConcatError].

(** The base named in the class statement. *)
Definition base (c : t) : option t :=
  match c with
  | Exception => None
  | LookupError => Some Exception
  | IndexError => Some LookupError
  | RuntimeError => Some Exception
  | NotImplementedError => Some RuntimeError
  | ValueError => Some Exception
  | ValidationError => Some ValueError
  | DownloadError => Some Exception
  | ClinicaIOArgumentError => Some ValueError
  | ClinicaIOConfigurationError => Some ValueError
  | ClinicaIOException => Some Exception
  | MAPSError
  | ClinicaIONetworksError
  | ClinicaIODataLeakageError
  | ClinicaIOTSVError
  | ClinicaIOBIDSError
  | ClinicaIOCAPSError
  | ClinicaIOConcatError => Some ClinicaIOException
  end.

Definition eq_dec (a b : t) : {a = b} + {a <> b}.
Proof. decide equality. Defined.

Definition eqb (a b : t) : bool := if eq_dec a b then true else false.

(** [c] is [d] or reaches it in at most [n] steps along the bases. *)
Fixpoint reaches (n : nat) (c d : t) : bool :=
  eqb c d
  || match n with
     | O => false
     | S k => match base c with
              | Some p => reaches k p d
              | None => false
              end
     end.

(** The length of the chain of bases above a class. *)
Fixpoint height (n : nat) (c : t) : nat :=
  match n with
  | O => O
  | S k => match base c with
           | Some p => S (height k p)
           | None => O
           end
  end.

(** [issubclass(c, d)]: no chain of bases is longer than three. *)
Definition issubclass (c d : t) : bool := reaches 3 c d.

(** The class of a raised exception. *)
Definition class_of (e : exception) : t :=
  match e with
  | Py.IndexError _ => IndexError
  | Py.ValueError _ => ValueError
  | Py.NotImplementedError _ => NotImplementedError
  | Py.ValidationError _ _ => ValidationError
  end.

(** Whether [except d] handles the exception [e]. *)
Definition caught_by (d : t) (e : exception) : bool := issubclass (class_of e) d.

End ExceptionClass.

(** ** More of [clinicaio/main.py] *)

(** [self / other] for a path [other]: an absolute [other] replaces [self],
    as for a string. *)
Definition joinpath_path (self other : PurePath.t) : PurePath.t :=
  if String.eqb (PurePath.root other) "" then
    PurePath.mk (PurePath.root self) (PurePath.tail self ++ PurePath.tail other)
  else other.

(** The functions of [clinica_utils], which is outside the sources, are
    taken as they are called: each returns or raises. *)
Section Collaborators.

Variable E : EnumModule.
Variables File Subjects Sessions Files Diagnostics : Type.

Variable check_caps_folder : PurePath.t -> result unit.
Variable container_from_filename : File -> result PurePath.t.
Variable get_subject_session_list :
  PurePath.t -> option PurePath.t -> bool -> bool -> option string ->
  result (Subjects * Sessions).
Variable clinicadl_file_reader :
  Subjects -> Sessions -> PurePath.t -> FileType ->
  result (Files * Diagnostics).

(** [CapsReader(input_dir)]. *)
Definition CapsReader_init (input_dir : PurePath.t) : result CapsReader :=
  _ <- check_caps_folder input_dir ;;
  Ok (mkCapsReader input_dir).

(** [subject_path] of both readers: [Path("")]. *)
Definition subject_path : PurePath.t := PurePath.parse "".

Definition tensor_dir (self : CapsReader) (file : File)
    (preprocessing : PreprocessingConfig) : result PurePath.t :=
  container <- container_from_filename file ;;
  Ok (joinpath_path (input_directory self) container
      / "deeplearning_prepare_data" / "image_based"
      / compute_folder preprocessing false)%path.

(** [get_input_files]; the file reader receives the fields of the file type
    and its first result is returned. *)
Definition get_input_files (self : CapsReader)
    (preprocessing : PreprocessingConfig) (data_tsv : option PurePath.t)
  : result Files :=
  subjects_sessions <-
    get_subject_session_list (input_directory self) data_tsv false false None ;;
  file_type <- get_filetype E preprocessing ;;
  found <-
    clinicadl_file_reader (fst subjects_sessions) (snd subjects_sessions)
      (input_directory self) file_type ;;
  Ok (fst found).

End Collaborators.

(** The names that [tensor_dir] puts below the container. *)
Definition tensor_dir_names (preprocessing : PreprocessingConfig) : list string :=
  ["deeplearning_prepare_data"; "image_based"; compute_folder preprocessing false].

(** * Properties *)

(** ** Strings *)

Section StringFacts.

Implicit Types (s a b n : string) (c : ascii).

Lemma mem_char_app c a b :
  mem_char c (a ++ b) = mem_char c a || mem_char c b.
Proof.
  induction a as [|d a IH]; simpl; [reflexivity|].
  now rewrite IH, orb_assoc.
Qed.

(** A prefix of [s] only has characters of [s]. *)
Lemma prefix_mem_char c n : forall s,
  String.prefix n s = true -> mem_char c n = true -> mem_char c s = true.
Proof.
  induction n as [|x n IH]; intros s Hp Hm; [discriminate|].
  destruct s as [|y s]; [discriminate|].
  cbn [String.prefix] in Hp.
  destruct (ascii_dec x y) as [Hxy|]; [subst y|discriminate].
  cbn [mem_char] in *.
  destruct (Ascii.eqb c x); [reflexivity|]. cbn [orb] in *. now apply IH.
Qed.

(** So does a substring. *)
Lemma contains_mem_char c n : forall s,
  contains n s = true -> mem_char c n = true -> mem_char c s = true.
Proof.
  induction s as [|y s IH]; intros Hc Hm.
  - simpl in Hc. rewrite orb_false_r in Hc.
    now apply prefix_mem_char with (n := n).
  - change (contains n (String y s))
      with (String.prefix n (String y s) || contains n s) in Hc.
    apply orb_true_iff in Hc as [Hp|Hc].
    + now apply prefix_mem_char with (n := n).
    + simpl. rewrite (IH Hc Hm). apply orb_true_r.
Qed.

(** A needle with a character that the text lacks does not occur in it. *)
Lemma contains_absent_char c n s :
  mem_char c n = true -> mem_char c s = false -> contains n s = false.
Proof.
  intros Hn Hs. destruct (contains n s) eqn:Hc; [|reflexivity].
  now rewrite (contains_mem_char c n s Hc Hn) in Hs.
Qed.

(** A needle that occurs in [b] occurs in [a ++ b]. *)
Lemma contains_app_r n a b :
  contains n b = true -> contains n (a ++ b) = true.
Proof.
  intros Hb. induction a as [|d a IH]; [exact Hb|].
  change (contains n (String d a ++ b))
    with (String.prefix n (String d (a ++ b)) || contains n (a ++ b)).
  rewrite IH. apply orb_true_r.
Qed.

(** No occurrence of a needle starts inside a text that lacks the first
    character of the needle. *)
Lemma contains_skip c n a b :
  mem_char c a = false ->
  contains (String c n) (a ++ b) = contains (String c n) b.
Proof.
  induction a as [|d a IH]; intros Ha; [reflexivity|].
  simpl in Ha. apply orb_false_iff in Ha as [Hcd Ha].
  change (contains (String c n) (String d a ++ b))
    with (String.prefix (String c n) (String d (a ++ b))
          || contains (String c n) (a ++ b)).
  rewrite (IH Ha). simpl String.prefix.
  destruct (ascii_dec c d) as [->|]; [|reflexivity].
  now rewrite Ascii.eqb_refl in Hcd.
Qed.

(** A needle that begins in [a] and runs into [b] needs every character
    that [a] lacks to come from [b]. *)
Lemma prefix_app_mem_char c n : forall a b,
  String.prefix n (a ++ b) = true -> mem_char c n = true ->
  mem_char c a = false -> mem_char c b = true.
Proof.
  induction n as [|x n IH]; intros a b Hp Hn Ha; [discriminate|].
  destruct a as [|y a].
  - now apply prefix_mem_char with (n := String x n).
  - simpl in Hp, Hn, Ha.
    destruct (ascii_dec x y) as [->|]; [|discriminate].
    apply orb_false_iff in Ha as [Hcy Ha]. rewrite Hcy in Hn.
    now apply IH with (a := a).
Qed.

Lemma all_chars_mem_char (p : ascii -> bool) c s :
  all_chars p s = true -> p c = false -> mem_char c s = false.
Proof.
  intros Hs Hc. induction s as [|d s IH]; [reflexivity|].
  simpl in *. apply andb_true_iff in Hs as [Hd Hs].
  rewrite (IH Hs), orb_false_r.
  destruct (Ascii.eqb_spec c d) as [->|]; [congruence|reflexivity].
Qed.

(** Replacing a one-character string by another rewrites the text
    character by character. *)
Lemma replace_char x y s :
  replace (String x "") (String y "") s
  = map_chars (fun c => if Ascii.eqb c x then y else c) s.
Proof.
  unfold replace. induction s as [|d s IH]; [reflexivity|].
  simpl. rewrite IH.
  destruct (ascii_dec x d) as [->|Hne].
  - rewrite Ascii.eqb_refl. now destruct s.
  - destruct (Ascii.eqb_spec d x) as [->|]; [now elim Hne|reflexivity].
Qed.

Lemma hyphen_underscore_map_chars s :
  hyphen_underscore s
    (map_chars (fun c => if Ascii.eqb c "-" then "_"%char else c) s).
Proof.
  induction s as [|d s IH]; simpl; [exact I|].
  split; [|exact IH].
  destruct (Ascii.eqb_spec d "-"); [right; now split|now left].
Qed.

End StringFacts.

(** ** File types *)

(** What the validator does on a pattern that has a first character: a
    leading slash raises the [ValueError] with the explanation, any other
    first character lets the pattern through unchanged. *)
Lemma check_pattern_nonempty c v :
  FileTypeModel.check_pattern (String c v)
  = if Ascii.eqb c "/"
    then Raise (ValueError FileTypeModel.check_pattern_message)
    else Ok (String c v).
Proof. reflexivity. Qed.

(** Construction on a pattern that has a first character. *)
Lemma new_nonempty c v d np :
  FileTypeModel.new (String c v) d np
  = if Ascii.eqb c "/"
    then Raise (ValidationError "pattern" FileTypeModel.check_pattern_message)
    else Ok (mkFileType (String c v) d np).
Proof.
  unfold FileTypeModel.new. rewrite check_pattern_nonempty.
  now destruct (Ascii.eqb c "/").
Qed.

(** Construction succeeds on a pattern whose first character is not a
    slash. *)
Lemma new_ok c v d np :
  Ascii.eqb c "/" = false ->
  FileTypeModel.new (String c v) d np = Ok (mkFileType (String c v) d np).
Proof. intros H. now rewrite new_nonempty, H. Qed.

(** X2.  For a non-empty pattern, construction fails exactly when the pattern
    begins with a slash, and it then fails with the validation error that
    carries the explanation; otherwise the pattern is stored unchanged. *)
Theorem FileType_nonempty_pattern (p d : string) (np : option string) :
  p <> "" ->
  (startswith "/" p = true ->
   FileTypeModel.new p d np
   = Raise (ValidationError "pattern" FileTypeModel.check_pattern_message))
  /\ (startswith "/" p = false ->
      FileTypeModel.new p d np = Ok (mkFileType p d np)).
Proof.
  intros Hp. destruct p as [|c v]; [now elim Hp|].
  rewrite new_nonempty. unfold startswith. cbn [String.prefix].
  assert (Hv : String.prefix "" v = true) by now destruct v.
  destruct (ascii_dec "/" c) as [<-|Hne].
  - rewrite Ascii.eqb_refl. split; [reflexivity|]. rewrite Hv. discriminate.
  - destruct (Ascii.eqb_spec c "/") as [->|]; [now elim Hne|].
    split; [discriminate|reflexivity].
Qed.

Lemma FileType_nonempty_pattern_witness :
  FileTypeModel.new "/tmp/x.nii" "d" None
  = Raise (ValidationError "pattern" FileTypeModel.check_pattern_message)
  /\ FileTypeModel.new "anat/x.nii" "d" None
     = Ok (mkFileType "anat/x.nii" "d" None).
Proof.
  split.
  - apply (FileType_nonempty_pattern "/tmp/x.nii" "d" None);
      [discriminate|reflexivity].
  - apply (FileType_nonempty_pattern "anat/x.nii" "d" None);
      [discriminate|reflexivity].
Defined.

(** C2, at the empty pattern.  The claim has every pattern that does not
    begin with a slash accepted, the empty one included; the validator reads
    the first character before it looks at it, so the empty pattern is not
    accepted: construction raises [IndexError], which is not a validation
    error either. *)
Theorem FileType_empty_pattern_raises (d : string) (np : option string) :
  startswith "/" "" = false
  /\ FileTypeModel.new "" d np = Raise (IndexError "string index out of range").
Proof. split; reflexivity. Qed.

(** ** The registry *)

(** C1, at the tag [T2_LINEAR].  The claim has the registry return, for each
    of the six tags, a class whose default instance carries the tag; the
    chain of comparisons has no branch for [T2_LINEAR], although the class
    [T2PreprocessingConfig] exists with that default, so the lookup raises
    the [ValueError] of the final branch. *)
Theorem get_preprocessing_T2_LINEAR_raises (E : EnumModule) :
  get_preprocessing (Preprocessing.OfEnum Preprocessing.T2_LINEAR)
  = Raise (ValueError
             ("Preprocessing " ++ Preprocessing.value Preprocessing.T2_LINEAR
              ++ " is not implemented."))
  /\ get_preprocessing
       (Preprocessing.OfStr (Preprocessing.value Preprocessing.T2_LINEAR))
     = get_preprocessing (Preprocessing.OfEnum Preprocessing.T2_LINEAR)
  /\ preprocessing (fields (instantiate E T2PreprocessingConfig_cls))
     = Preprocessing.T2_LINEAR.
Proof. repeat split. Qed.

(** X1.  For each of the five other tags the registry returns a class whose
    default instance carries the tag. *)
Theorem get_preprocessing_default_tag (E : EnumModule) (p : Preprocessing.t) :
  p <> Preprocessing.T2_LINEAR ->
  exists cls,
    get_preprocessing (Preprocessing.OfEnum p) = Ok cls
    /\ preprocessing (fields (instantiate E cls)) = p.
Proof.
  intros Hp. destruct p; try (now elim Hp); eexists; split; reflexivity.
Qed.

Lemma get_preprocessing_default_tag_witness :
  exists cls,
    get_preprocessing (Preprocessing.OfEnum Preprocessing.PET_LINEAR) = Ok cls
    /\ preprocessing (fields (instantiate sample_enum cls))
       = Preprocessing.PET_LINEAR.
Proof.
  apply (get_preprocessing_default_tag sample_enum Preprocessing.PET_LINEAR).
  discriminate.
Defined.

(** ** The configurations *)

(** C4.  The raw-layout builder of the T2 configuration fails with the
    not-implemented error, whatever the reconstruction argument and whatever
    the fields of the configuration. *)
Theorem T2_bids_nii_not_implemented (b : BaseFields)
    (reconstruction : option string) :
  bids_nii (T2PreprocessingConfig b) reconstruction
  = Raise (NotImplementedError
             ("Extraction of preprocessing "
              ++ Preprocessing.value (preprocessing b)
              ++ " is not implemented from BIDS directory."))
  /\ is_ok (bids_nii (T2PreprocessingConfig b) reconstruction) = false.
Proof. split; reflexivity. Qed.

(** C9.  The derived-layout identity of the FLAIR configuration carries the
    modality tag [T2W] and that of the T2 configuration the modality tag
    [FLAIR], for every instance; both carry the pipeline tag of the
    instance, and the two modality tags are different tags. *)
Theorem caps_nii_flair_t2_swapped (b : BaseFields) :
  caps_nii (FlairPreprocessingConfig b)
  = (preprocessing b, Linear LinearModality.T2W)
  /\ caps_nii (T2PreprocessingConfig b)
     = (preprocessing b, Linear LinearModality.FLAIR)
  /\ LinearModality.T2W <> LinearModality.FLAIR.
Proof. repeat split. discriminate. Qed.

(** C5.  For every configuration, [compute_folder(True)] is the string of
    the pipeline tag unchanged and [compute_folder(False)] is that string
    with every hyphen turned into an underscore; the two results differ
    only by hyphen against underscore. *)
Theorem compute_folder_hyphen_underscore (self : PreprocessingConfig) :
  compute_folder self true = Preprocessing.value (preprocessing (fields self))
  /\ compute_folder self false
     = map_chars (fun c => if Ascii.eqb c "-" then "_"%char else c)
         (Preprocessing.value (preprocessing (fields self)))
  /\ hyphen_underscore (compute_folder self true) (compute_folder self false).
Proof.
  unfold compute_folder. rewrite replace_char.
  repeat split. apply hyphen_underscore_map_chars.
Qed.

(** C7.  The raw-layout builder of a PET configuration whose tracer is [FDG],
    called with the reconstruction [OSEM], returns a file type whose pattern
    contains [_trc-FDG] and [_rec-OSEM] and whose description names the
    tracer and the reconstruction method. *)
Theorem PET_bids_nii_FDG_OSEM (b : BaseFields)
    (suvr_reference_region : SUVRReferenceRegions.t) :
  exists ft,
    bids_nii (PETPreprocessingConfig b (Tracer.mk "FDG") suvr_reference_region)
      (Some "OSEM") = Ok ft
    /\ pattern ft = "pet/*_trc-FDG_rec-OSEM_pet.nii*"
    /\ description ft = "PET data with FDG tracer and reconstruction method OSEM"
    /\ contains "_trc-FDG" (pattern ft) = true
    /\ contains "_rec-OSEM" (pattern ft) = true
    /\ contains "FDG tracer" (description ft) = true
    /\ contains "reconstruction method OSEM" (description ft) = true.
Proof. eexists. repeat split. Qed.

(** *** The linear file type of the T1 configuration *)

Section LinearFileType.

Variable E : EnumModule.

Lemma T1_get_filetype (b : BaseFields) :
  get_filetype E (T1PreprocessingConfig b)
  = Ok (mkFileType
          ("*space-MNI152NLin2009cSym"
           ++ (if use_uncropped_image b then "" else crop_qualifier)
           ++ "_res-1x1x1_" ++ LinearModality_value E LinearModality.T1W
           ++ ".nii.gz")
          ((LinearModality_value E LinearModality.T1W
            ++ " Image registered in MNI152NLin2009cSym space using "
            ++ Preprocessing.value (preprocessing b) ++ " pipeline ")
           ++ (if use_uncropped_image b then "" else crop_dimension_text))
          (Some (Preprocessing.value (preprocessing b)))).
Proof. reflexivity. Qed.

Lemma cropped_pattern v :
  contains crop_qualifier
    ("*space-MNI152NLin2009cSym" ++ crop_qualifier ++ "_res-1x1x1_" ++ v
     ++ ".nii.gz") = true.
Proof. reflexivity. Qed.

Lemma cropped_description v p :
  contains crop_dimension_text
    ((v ++ " Image registered in MNI152NLin2009cSym space using "
      ++ Preprocessing.value p ++ " pipeline ") ++ crop_dimension_text) = true.
Proof.
  apply contains_app_r. reflexivity.
Qed.

(** With an alphanumeric modality string, the only place where the crop
    qualifier could begin is the underscore before the modality, and it
    would then need a hyphen from the modality or from the extension. *)
Lemma uncropped_pattern v :
  all_chars is_alnum v = true ->
  contains crop_qualifier
    ("*space-MNI152NLin2009cSym" ++ "" ++ "_res-1x1x1_" ++ v ++ ".nii.gz")
  = false.
Proof.
  intros Hv. simpl. apply orb_false_iff. split.
  - destruct (String.prefix "desc-Crop" (v ++ ".nii.gz")) eqn:Hp; [|reflexivity].
    assert (Hm : mem_char "-" ".nii.gz" = true).
    { apply (prefix_app_mem_char "-" "desc-Crop" v); [exact Hp|reflexivity|].
      now apply (all_chars_mem_char is_alnum). }
    discriminate Hm.
  - unfold crop_qualifier.
    rewrite (contains_skip "_" "desc-Crop" v ".nii.gz"); [reflexivity|].
    now apply (all_chars_mem_char is_alnum).
Qed.

(** The crop-dimension text has a parenthesis, which neither an alphanumeric
    modality string nor the rest of the description has. *)
Lemma uncropped_description v p :
  all_chars is_alnum v = true ->
  contains crop_dimension_text
    ((v ++ " Image registered in MNI152NLin2009cSym space using "
      ++ Preprocessing.value p ++ " pipeline ") ++ "") = false.
Proof.
  intros Hv. apply (contains_absent_char "("); [reflexivity|].
  rewrite !mem_char_app.
  rewrite (all_chars_mem_char is_alnum "(" v Hv eq_refl).
  now destruct p.
Qed.

End LinearFileType.

(** None of them is in the description of an uncropped image when the
    modality string is alphanumeric. *)
Lemma uncropped_description_marks (c : ascii) (v : string)
    (p : Preprocessing.t) :
  all_chars is_alnum v = true ->
  In c crop_text_marks ->
  mem_char c
    ((v ++ " Image registered in MNI152NLin2009cSym space using "
      ++ Preprocessing.value p ++ " pipeline ") ++ "") = false.
Proof.
  intros Hv Hc. rewrite !mem_char_app.
  destruct Hc as [<-|[<-|[<-|[]]]];
    match goal with
    | |- context [mem_char ?c v] =>
        rewrite (all_chars_mem_char is_alnum c v Hv eq_refl)
    end;
    now destruct p.
Qed.

(** C6.  For the T1 configuration, whatever its other fields, the
    derived-layout file type built with [use_uncropped_image=False] has the
    crop qualifier in its pattern and the crop-dimension text, matrix size
    and voxel size, in its description; with [use_uncropped_image=True] the
    pattern has no crop qualifier and the description has none of the
    crop-dimension text: not the matrix size with the voxel size, not the
    matrix dimensions alone, not the phrase that introduces them.  The
    string of the modality tag [T1W] comes from the enum module: it is taken
    to be alphanumeric. *)
Theorem T1_linear_crop (E : EnumModule) (fb : bool) (p : Preprocessing.t) :
  all_chars is_alnum (LinearModality_value E LinearModality.T1W) = true ->
  (exists ft,
      get_filetype E (T1PreprocessingConfig (mkBaseFields fb p false)) = Ok ft
      /\ contains "_desc-Crop" (pattern ft) = true
      /\ contains "matrix size 169×208×179, 1 mm isotropic voxels"
           (description ft) = true
      /\ contains
           "and cropped (matrix size 169×208×179, 1 mm isotropic voxels)"
           (description ft) = true)
  /\ (exists ft,
         get_filetype E (T1PreprocessingConfig (mkBaseFields fb p true)) = Ok ft
         /\ contains "_desc-Crop" (pattern ft) = false
         /\ contains "matrix size 169×208×179, 1 mm isotropic voxels"
              (description ft) = false
         /\ contains "169×208×179" (description ft) = false
         /\ contains
              "and cropped (matrix size 169×208×179, 1 mm isotropic voxels)"
              (description ft) = false
         /\ forall c, In c crop_text_marks ->
                      mem_char c (description ft) = false).
Proof.
  intros Hv. split; eexists; (split; [apply T1_get_filetype|]);
    cbn [pattern description use_uncropped_image preprocessing].
  - split; [apply cropped_pattern|]. split.
    + apply contains_app_r. reflexivity.
    + apply cropped_description.
  - split; [now apply uncropped_pattern|].
    split; [|split; [|split]].
    + apply (contains_absent_char ","); [reflexivity|].
      apply uncropped_description_marks; [exact Hv|cbn; tauto].
    + apply (contains_absent_char (ascii_of_nat 195)); [reflexivity|].
      apply uncropped_description_marks; [exact Hv|cbn; tauto].
    + now apply uncropped_description.
    + intros c Hc. now apply uncropped_description_marks.
Qed.

Lemma T1_linear_crop_witness :
  (exists ft,
      get_filetype sample_enum
        (T1PreprocessingConfig (mkBaseFields false Preprocessing.T1_LINEAR false))
      = Ok ft
      /\ contains "_desc-Crop" (pattern ft) = true
      /\ contains "matrix size 169×208×179, 1 mm isotropic voxels"
           (description ft) = true
      /\ contains
           "and cropped (matrix size 169×208×179, 1 mm isotropic voxels)"
           (description ft) = true)
  /\ (exists ft,
         get_filetype sample_enum
           (T1PreprocessingConfig (mkBaseFields false Preprocessing.T1_LINEAR true))
         = Ok ft
         /\ contains "_desc-Crop" (pattern ft) = false
         /\ contains "matrix size 169×208×179, 1 mm isotropic voxels"
              (description ft) = false
         /\ contains "169×208×179" (description ft) = false
         /\ contains
              "and cropped (matrix size 169×208×179, 1 mm isotropic voxels)"
              (description ft) = false
         /\ forall c, In c crop_text_marks ->
                      mem_char c (description ft) = false).
Proof.
  apply (T1_linear_crop sample_enum false Preprocessing.T1_LINEAR).
  reflexivity.
Defined.

(** *** The computed field [file_type] *)

Section ResolvedFileType.

Variable E : EnumModule.

(** Every pattern that a builder composes begins with a character of its
    own template, so the raw-layout builder succeeds on every configuration
    but the T2 one, and the derived-layout builder on every configuration. *)
Lemma bids_nii_ok self reconstruction :
  (forall b, self <> T2PreprocessingConfig b) ->
  is_ok (bids_nii self reconstruction) = true.
Proof.
  intros Hself. destruct self as [b t r|b s|b m sp|b|b|b]; try reflexivity.
  - cbn [bids_nii]. destruct (Tracer.truth t);
      destruct reconstruction as [rc|];
      try destruct (str_truth (Some rc)); reflexivity.
  - now elim (Hself b).
Qed.

Lemma get_filetype_ok self : is_ok (get_filetype E self) = true.
Proof. destruct self; reflexivity. Qed.

Lemma contains_members p : Preprocessing.contains p = true.
Proof. now destruct p. Qed.

(** C3.  The computed field [file_type] is the result of [bids_nii()] when
    [from_bids] is set; otherwise it is the result of [get_filetype()] when
    the tag is in the member table of the enumeration, and the
    not-implemented error that names the pipeline when it is not.  In
    particular, with [from_bids] set it raises for the T2 configuration and
    is the file type that [bids_nii()] returns for every other one. *)
Theorem file_type_dispatch (table : list Preprocessing.t)
    (self : PreprocessingConfig) :
  (from_bids (fields self) = true ->
   file_type_in E table self = bids_nii self None)
  /\ (from_bids (fields self) = false ->
      Preprocessing.contains_in table (preprocessing (fields self)) = true ->
      file_type_in E table self = get_filetype E self)
  /\ (from_bids (fields self) = false ->
      Preprocessing.contains_in table (preprocessing (fields self)) = false ->
      file_type_in E table self
      = Raise (NotImplementedError
                 ("Extraction of preprocessing "
                  ++ Preprocessing.value (preprocessing (fields self))
                  ++ " is not implemented from CAPS directory.")))
  /\ (forall b, from_bids b = true ->
      file_type E (T2PreprocessingConfig b)
      = Raise (NotImplementedError
                 ("Extraction of preprocessing "
                  ++ Preprocessing.value (preprocessing b)
                  ++ " is not implemented from BIDS directory.")))
  /\ (from_bids (fields self) = true ->
      (forall b, self <> T2PreprocessingConfig b) ->
      file_type E self = bids_nii self None
      /\ is_ok (file_type E self) = true).
Proof.
  unfold file_type, file_type_in.
  split; [|split; [|split; [|split]]].
  - intros ->. reflexivity.
  - intros -> ->. reflexivity.
  - intros -> ->. reflexivity.
  - intros b Hb. cbn [fields]. rewrite Hb. reflexivity.
  - intros -> Hself. split; [reflexivity|]. now apply bids_nii_ok.
Qed.

(** C10.  A configuration carries a member of the enumeration in its
    [preprocessing] field, so with [from_bids=False] the test of the
    unrecognized tag is false: [file_type] is the result of
    [get_filetype()], which is a file type, and no not-implemented error is
    raised. *)
Theorem file_type_caps_is_get_filetype (self : PreprocessingConfig) :
  from_bids (fields self) = false ->
  Preprocessing.contains (preprocessing (fields self)) = true
  /\ file_type E self = get_filetype E self
  /\ is_ok (file_type E self) = true
  /\ forall msg, file_type E self <> Raise (NotImplementedError msg).
Proof.
  intros Hfb.
  assert (Heq : file_type E self = get_filetype E self).
  { unfold file_type, file_type_in. rewrite Hfb.
    fold (Preprocessing.contains (preprocessing (fields self))).
    now rewrite contains_members. }
  repeat split.
  - apply contains_members.
  - exact Heq.
  - rewrite Heq. apply get_filetype_ok.
  - intros msg Hmsg. pose proof (get_filetype_ok self) as Hok.
    rewrite <- Heq, Hmsg in Hok. discriminate Hok.
Qed.

End ResolvedFileType.

Lemma file_type_dispatch_witness :
  file_type_in sample_enum [Preprocessing.T1_LINEAR]
    (T2PreprocessingConfig (mkBaseFields false Preprocessing.T2_LINEAR false))
  = Raise (NotImplementedError
             "Extraction of preprocessing t2-linear is not implemented from CAPS directory.")
  /\ file_type_in sample_enum Preprocessing.members
       (T2PreprocessingConfig (mkBaseFields false Preprocessing.T2_LINEAR false))
     = Ok (mkFileType "*space-MNI152NLin2009cSym_desc-Crop_res-1x1x1_flair.nii.gz"
             "flair Image registered in MNI152NLin2009cSym space using t2-linear pipeline and cropped (matrix size 169×208×179, 1 mm isotropic voxels)"
             (Some "t2-linear"))
  /\ file_type sample_enum
       (T1PreprocessingConfig (mkBaseFields true Preprocessing.T1_LINEAR false))
     = Ok (mkFileType "anat/sub-*_ses-*_T1w.nii*" "T1w MRI" None).
Proof.
  split; [|split].
  - apply (proj1 (proj2 (proj2
      (file_type_dispatch sample_enum [Preprocessing.T1_LINEAR]
         (T2PreprocessingConfig
            (mkBaseFields false Preprocessing.T2_LINEAR false))))));
      reflexivity.
  - apply (eq_trans (proj1 (proj2
      (file_type_dispatch sample_enum Preprocessing.members
         (T2PreprocessingConfig
            (mkBaseFields false Preprocessing.T2_LINEAR false))))
      eq_refl eq_refl)).
    reflexivity.
  - apply (eq_trans (proj1 (proj2 (proj2 (proj2 (proj2
      (file_type_dispatch sample_enum Preprocessing.members
         (T1PreprocessingConfig
            (mkBaseFields true Preprocessing.T1_LINEAR false))))))
      eq_refl ltac:(intros b; discriminate)))).
    reflexivity.
Defined.

Lemma file_type_caps_is_get_filetype_witness :
  Preprocessing.contains Preprocessing.DWI_DTI = true
  /\ file_type sample_enum (instantiate sample_enum DTIPreprocessingConfig_cls)
     = get_filetype sample_enum (instantiate sample_enum DTIPreprocessingConfig_cls)
  /\ is_ok (file_type sample_enum
              (instantiate sample_enum DTIPreprocessingConfig_cls)) = true
  /\ forall msg,
       file_type sample_enum (instantiate sample_enum DTIPreprocessingConfig_cls)
       <> Raise (NotImplementedError msg).
Proof.
  apply (file_type_caps_is_get_filetype sample_enum
           (instantiate sample_enum DTIPreprocessingConfig_cls)).
  reflexivity.
Defined.

(** ** The reader *)

(** The underscore form of a tag is one name, and it is relative. *)
Lemma tag_folder_name (tag : Preprocessing.t) :
  startswith "/" (replace "-" "_" (Preprocessing.value tag)) = false
  /\ PurePath.names (replace "-" "_" (Preprocessing.value tag))
     = [replace "-" "_" (Preprocessing.value tag)].
Proof. destruct tag; split; reflexivity. Qed.

Lemma joinpath_relative (dir : PurePath.t) (key : string) :
  startswith "/" key = false ->
  (dir / key)%path
  = PurePath.mk (PurePath.root dir) (PurePath.tail dir ++ PurePath.names key).
Proof. intros H. unfold PurePath.joinpath. now rewrite H. Qed.

(** C8, as amended.  For every root directory and every subject and session
    string that does not begin with a slash, the folder is the root
    directory followed by [subjects], the names of the subject, the names of
    the session and the tag with its hyphens turned into underscores, which
    is the concatenation that the specification words; in particular, for
    [sub-01], [ses-M00] and [T1_LINEAR] it is
    [root/subjects/sub-01/ses-M00/t1_linear]. *)
Theorem preprocessing_folder_relative (self : CapsReader) :
  (forall subject session tag,
      startswith "/" subject = false ->
      startswith "/" session = false ->
      preprocessing_folder self subject session tag
      = PurePath.mk (PurePath.root (input_directory self))
          (PurePath.tail (input_directory self)
           ++ ["subjects"] ++ PurePath.names subject ++ PurePath.names session
           ++ [replace "-" "_" (Preprocessing.value tag)])
      /\ preprocessing_folder self subject session tag
         = concatenated_folder (input_directory self) subject session tag)
  /\ preprocessing_folder self "sub-01" "ses-M00" Preprocessing.T1_LINEAR
     = PurePath.mk (PurePath.root (input_directory self))
         (PurePath.tail (input_directory self)
          ++ ["subjects"; "sub-01"; "ses-M00"; "t1_linear"]).
Proof.
  assert (Hgen : forall subject session tag,
      startswith "/" subject = false ->
      startswith "/" session = false ->
      preprocessing_folder self subject session tag
      = PurePath.mk (PurePath.root (input_directory self))
          (PurePath.tail (input_directory self)
           ++ ["subjects"] ++ PurePath.names subject ++ PurePath.names session
           ++ [replace "-" "_" (Preprocessing.value tag)])).
  { intros subject session tag Hsub Hses. unfold preprocessing_folder.
    destruct (tag_folder_name tag) as [Htag Hnames].
    rewrite (joinpath_relative _ _ Htag), Hnames.
    rewrite (joinpath_relative _ _ Hses), (joinpath_relative _ _ Hsub).
    rewrite (joinpath_relative _ "subjects" eq_refl).
    cbn [PurePath.root PurePath.tail].
    now rewrite <- !app_assoc. }
  split.
  - intros subject session tag Hsub Hses. split; [now apply Hgen|].
    rewrite (Hgen subject session tag Hsub Hses).
    unfold concatenated_folder. rewrite <- replace_char.
    cbn [flat_map]. destruct (tag_folder_name tag) as [_ ->].
    now rewrite app_nil_r.
  - now rewrite (Hgen "sub-01" "ses-M00" Preprocessing.T1_LINEAR eq_refl eq_refl).
Qed.

Lemma preprocessing_folder_relative_witness :
  PurePath.as_posix
    (preprocessing_folder (mkCapsReader (PurePath.parse "/data/caps"))
       "sub-01" "ses-M00" Preprocessing.T1_LINEAR)
  = "/data/caps/subjects/sub-01/ses-M00/t1_linear"
  /\ preprocessing_folder (mkCapsReader (PurePath.parse "root"))
       "sub-02" "ses-M06" Preprocessing.PET_LINEAR
     = PurePath.parse "root/subjects/sub-02/ses-M06/pet_linear".
Proof.
  split.
  - rewrite (proj2 (preprocessing_folder_relative
                      (mkCapsReader (PurePath.parse "/data/caps")))).
    reflexivity.
  - rewrite (proj1 (proj1 (preprocessing_folder_relative
                             (mkCapsReader (PurePath.parse "root")))
                      "sub-02" "ses-M06" Preprocessing.PET_LINEAR
                      eq_refl eq_refl)).
    reflexivity.
Defined.

(** C8, as stated, at a subject that begins with a slash: the folder is then
    the subject itself followed by the session and the tag, a path that is
    neither below the root directory nor below [subjects].  The path of the
    claim is the same whether its four entries are appended to the root
    directory or its text is written out and read as a path. *)
Lemma preprocessing_folder_absolute_subject :
  preprocessing_folder (mkCapsReader (PurePath.parse "root"))
    "/sub-01" "ses-M00" Preprocessing.T1_LINEAR
  = PurePath.parse "/sub-01/ses-M00/t1_linear"
  /\ concatenated_folder (PurePath.parse "root")
       "/sub-01" "ses-M00" Preprocessing.T1_LINEAR
     = PurePath.parse "root/subjects/sub-01/ses-M00/t1_linear"
  /\ PurePath.parse
       (join "/" ["root"; "subjects"; "/sub-01"; "ses-M00"; "t1_linear"])
     = PurePath.parse "root/subjects/sub-01/ses-M00/t1_linear"
  /\ preprocessing_folder (mkCapsReader (PurePath.parse "root"))
       "/sub-01" "ses-M00" Preprocessing.T1_LINEAR
     <> concatenated_folder (PurePath.parse "root")
          "/sub-01" "ses-M00" Preprocessing.T1_LINEAR.
Proof.
  split; [vm_compute; reflexivity|].
  split; [vm_compute; reflexivity|].
  split; [vm_compute; reflexivity|].
  intros H. vm_compute in H. discriminate H.
Qed.

(** * Further properties of the configurations *)

Lemma append_assoc (a b c : string) : (a ++ b) ++ c = a ++ b ++ c.
Proof. induction a as [|x a IH]; cbn; [reflexivity|now rewrite IH]. Qed.

Section ConfigurationFacts.

Variable E : EnumModule.

(** What construction accepts is stored as it was given, and it is a
    non-empty pattern without a leading slash. *)
Lemma new_inversion p d np ft :
  FileTypeModel.new p d np = Ok ft ->
  ft = mkFileType p d np /\ p <> "" /\ startswith "/" p = false.
Proof.
  destruct p as [|c v]; [discriminate|].
  rewrite new_nonempty. destruct (Ascii.eqb_spec c "/") as [->|Hc]; [discriminate|].
  intros [= <-]. repeat split; [discriminate|].
  unfold startswith. cbn [String.prefix].
  destruct (ascii_dec "/" c) as [<-|]; [now elim Hc|reflexivity].
Qed.

(** The raw-layout builder raises for the T2 configuration only. *)
Lemma bids_nii_raise self reconstruction e :
  bids_nii self reconstruction = Raise e ->
  is_T2 self = true
  /\ e = NotImplementedError
           ("Extraction of preprocessing "
            ++ Preprocessing.value (preprocessing (fields self))
            ++ " is not implemented from BIDS directory.").
Proof.
  intros H. destruct self as [b t r|b s|b m sp|b|b|b];
    try (match type of H with
         | bids_nii ?s _ = _ =>
             assert (Hok : is_ok (bids_nii s reconstruction) = true)
               by (apply bids_nii_ok; intros b'; discriminate)
         end;
         rewrite H in Hok; discriminate Hok).
  cbn [bids_nii] in H. injection H as <-. now split.
Qed.

Lemma file_type_raise self e :
  file_type E self = Raise e ->
  from_bids (fields self) = true
  /\ is_T2 self = true
  /\ e = NotImplementedError
           ("Extraction of preprocessing "
            ++ Preprocessing.value (preprocessing (fields self))
            ++ " is not implemented from BIDS directory.").
Proof.
  unfold file_type, file_type_in. destruct (from_bids (fields self)).
  - intros H. split; [reflexivity|]. now apply bids_nii_raise in H.
  - fold (Preprocessing.contains (preprocessing (fields self))).
    rewrite contains_members. cbn [negb]. intros H.
    pose proof (get_filetype_ok E self) as Hok. rewrite H in Hok.
    discriminate Hok.
Qed.

(** X3.  [file_type] fails for exactly one kind of configuration, the T2
    one with [from_bids] set, and then with the not-implemented error of
    its raw-layout builder; on every other configuration it is a file
    type. *)
Theorem file_type_fails_only_for_T2_from_bids (self : PreprocessingConfig) :
  is_ok (file_type E self) = negb (from_bids (fields self) && is_T2 self)
  /\ forall e, file_type E self = Raise e ->
       from_bids (fields self) = true
       /\ is_T2 self = true
       /\ e = NotImplementedError
                ("Extraction of preprocessing "
                 ++ Preprocessing.value (preprocessing (fields self))
                 ++ " is not implemented from BIDS directory.").
Proof.
  split; [|apply file_type_raise].
  destruct (file_type E self) as [ft|e] eqn:H; cbn [is_ok].
  - destruct (from_bids (fields self)) eqn:Hfb; [|reflexivity].
    destruct self as [| | | | |b]; try reflexivity.
    unfold file_type, file_type_in in H. cbn [fields] in *.
    rewrite Hfb in H. discriminate H.
  - apply file_type_raise in H as (-> & -> & _). reflexivity.
Qed.

(** X4.  A custom configuration has one file type for both layouts: the
    pattern is a star followed by the suffix and does not depend on
    [from_bids], on the other base fields or on the reconstruction
    argument.  Every suffix is accepted, the empty one, which gives the
    pattern of a single star, and one that begins with a slash. *)
Theorem Custom_file_type (b : BaseFields) (custom_suffix : string)
    (reconstruction : option string) :
  let ft := mkFileType ("*" ++ custom_suffix) "Custom suffix" None in
  file_type E (CustomPreprocessingConfig b custom_suffix) = Ok ft
  /\ bids_nii (CustomPreprocessingConfig b custom_suffix) reconstruction = Ok ft
  /\ get_filetype E (CustomPreprocessingConfig b custom_suffix) = Ok ft
  /\ file_type E (CustomPreprocessingConfig b "")
     = Ok (mkFileType "*" "Custom suffix" None).
Proof.
  cbn zeta. unfold file_type, file_type_in. cbn [fields].
  fold (Preprocessing.contains (preprocessing b)). rewrite contains_members.
  repeat split; now destruct (from_bids b).
Qed.


End ConfigurationFacts.

Lemma file_type_fails_only_for_T2_from_bids_witness :
  is_ok (file_type sample_enum
           (T2PreprocessingConfig (mkBaseFields true Preprocessing.T2_LINEAR false)))
  = false
  /\ is_ok (file_type sample_enum
              (T2PreprocessingConfig (mkBaseFields false Preprocessing.T2_LINEAR false)))
     = true.
Proof.
  split.
  - rewrite (proj1 (file_type_fails_only_for_T2_from_bids sample_enum _)).
    reflexivity.
  - rewrite (proj1 (file_type_fails_only_for_T2_from_bids sample_enum _)).
    reflexivity.
Defined.


Section BuiltFileTypes.

Variable E : EnumModule.

Lemma bids_nii_pattern self reconstruction ft :
  bids_nii self reconstruction = Ok ft ->
  pattern ft <> "" /\ startswith "/" (pattern ft) = false.
Proof.
  destruct self as [b t r|b s|b m sp|b|b|b]; cbn [bids_nii]; intros H;
    try discriminate H;
    try (apply new_inversion in H as (-> & Hne & Hs); now split).
  destruct (Tracer.truth t); destruct reconstruction as [rc|];
    try destruct (str_truth (Some rc));
    apply new_inversion in H as (-> & Hne & Hs); now split.
Qed.

Lemma linear_nii_pattern self ft :
  linear_nii E self = Ok ft ->
  pattern ft <> "" /\ startswith "/" (pattern ft) = false.
Proof.
  unfold linear_nii. destruct (caps_nii self) as [p m]. intros H.
  apply new_inversion in H as (-> & Hne & Hs). now split.
Qed.

Lemma get_filetype_pattern self ft :
  get_filetype E self = Ok ft ->
  pattern ft <> "" /\ startswith "/" (pattern ft) = false.
Proof.
  destruct self as [b t r|b s|b m sp|b|b|b]; cbn [get_filetype]; intros H;
    try (now apply linear_nii_pattern in H);
    try (now apply bids_nii_pattern in H);
    apply new_inversion in H as (-> & Hne & Hs); now split.
Qed.

Lemma ok_exists {A : Type} (m : result A) :
  is_ok m = true -> exists a, m = Ok a.
Proof. destruct m as [a|e]; [now exists a|discriminate]. Qed.

(** X6.  The builders keep the invariant of the validator and never trip
    over it: whatever the fields of the configuration, the reconstruction
    argument and the strings of the enum members, [linear_nii] and
    [get_filetype] return a file type, [bids_nii] does on every
    configuration but the T2 one and [file_type] on every configuration but
    the T2 one with [from_bids] set, and the pattern of that file type is
    not empty and does not begin with a slash. *)
Theorem built_pattern_is_relative (self : PreprocessingConfig)
    (reconstruction : option string) :
  (exists ft,
      linear_nii E self = Ok ft
      /\ pattern ft <> "" /\ startswith "/" (pattern ft) = false)
  /\ (exists ft,
         get_filetype E self = Ok ft
         /\ pattern ft <> "" /\ startswith "/" (pattern ft) = false)
  /\ (is_T2 self = false ->
      exists ft,
        bids_nii self reconstruction = Ok ft
        /\ pattern ft <> "" /\ startswith "/" (pattern ft) = false)
  /\ (from_bids (fields self) && is_T2 self = false ->
      exists ft,
        file_type E self = Ok ft
        /\ pattern ft <> "" /\ startswith "/" (pattern ft) = false).
Proof.
  assert (Hget : exists ft,
             get_filetype E self = Ok ft
             /\ pattern ft <> "" /\ startswith "/" (pattern ft) = false).
  { destruct (ok_exists _ (get_filetype_ok E self)) as [ft Hft].
    exists ft. split; [exact Hft|]. now apply get_filetype_pattern in Hft. }
  assert (Hbids : is_T2 self = false ->
            exists ft,
              bids_nii self reconstruction = Ok ft
              /\ pattern ft <> "" /\ startswith "/" (pattern ft) = false).
  { intros Ht.
    assert (Hok : is_ok (bids_nii self reconstruction) = true).
    { apply bids_nii_ok. intros b ->. discriminate Ht. }
    destruct (ok_exists _ Hok) as [ft Hft].
    exists ft. split; [exact Hft|]. now apply bids_nii_pattern in Hft. }
  split; [|split; [exact Hget|split; [exact Hbids|]]].
  - unfold linear_nii. destruct (caps_nii self) as [tag modality].
    eexists. split; [reflexivity|].
    cbn [pattern]. split; [discriminate|reflexivity].
  - intros Hcase. unfold file_type, file_type_in.
    destruct (from_bids (fields self)).
    + cbn [andb] in Hcase.
      assert (Hnone : is_ok (bids_nii self None) = true).
      { apply bids_nii_ok. intros b ->. discriminate Hcase. }
      destruct (ok_exists _ Hnone) as [ft Hft].
      exists ft. split; [exact Hft|]. now apply bids_nii_pattern in Hft.
    + fold (Preprocessing.contains (preprocessing (fields self))).
      rewrite contains_members. exact Hget.
Qed.

(** X7.  What [CapsReader.get_preprocessing] returns is the default
    instance of the class that the registry gives for the instance's own
    tag: it is not from BIDS, it is cropped, and its [file_type] is the file
    type of its derived-layout builder, so it does not fail. *)
Theorem CapsReader_get_preprocessing_default (x : Preprocessing.like)
    (cfg : PreprocessingConfig) :
  CapsReader_get_preprocessing E x = Ok cfg ->
  (exists cls,
      cfg = instantiate E cls
      /\ get_preprocessing (Preprocessing.OfEnum (preprocessing (fields cfg)))
         = Ok cls)
  /\ from_bids (fields cfg) = false
  /\ use_uncropped_image (fields cfg) = false
  /\ is_T2 cfg = false
  /\ file_type E cfg = get_filetype E cfg
  /\ is_ok (file_type E cfg) = true.
Proof.
  unfold CapsReader_get_preprocessing. intros H.
  destruct (get_preprocessing x) as [cls|e] eqn:Hx; [|discriminate H].
  injection H as <-.
  assert (Hcls : cls <> T2PreprocessingConfig_cls).
  { intros ->. unfold get_preprocessing in Hx.
    destruct (Preprocessing.call x) as [p|]; [|discriminate Hx].
    destruct p; discriminate Hx. }
  destruct cls; try (now elim Hcls); repeat split;
    try (eexists; split; reflexivity).
Qed.

End BuiltFileTypes.

Lemma built_pattern_is_relative_witness :
  (exists ft,
      bids_nii (CustomPreprocessingConfig
                  (mkBaseFields false Preprocessing.CUSTOM false) "/abs") None
      = Ok ft
      /\ pattern ft <> "" /\ startswith "/" (pattern ft) = false)
  /\ (exists ft,
         file_type sample_enum
           (instantiate sample_enum CustomPreprocessingConfig_cls) = Ok ft
         /\ pattern ft <> "" /\ startswith "/" (pattern ft) = false).
Proof.
  split.
  - apply (proj1 (proj2 (proj2
      (built_pattern_is_relative sample_enum
         (CustomPreprocessingConfig
            (mkBaseFields false Preprocessing.CUSTOM false) "/abs")
         None)))).
    reflexivity.
  - apply (proj2 (proj2 (proj2
      (built_pattern_is_relative sample_enum
         (instantiate sample_enum CustomPreprocessingConfig_cls) None)))).
    reflexivity.
Defined.

Lemma CapsReader_get_preprocessing_default_witness :
  from_bids (fields (instantiate sample_enum PETPreprocessingConfig_cls)) = false
  /\ is_ok (file_type sample_enum
              (instantiate sample_enum PETPreprocessingConfig_cls)) = true.
Proof.
  destruct (CapsReader_get_preprocessing_default sample_enum
              (Preprocessing.OfStr "pet-linear")
              (instantiate sample_enum PETPreprocessingConfig_cls) eq_refl)
    as (_ & Hfb & _ & _ & _ & Hok).
  split; [exact Hfb|exact Hok].
Defined.

(** * The exception classes *)

(** X8.  In [exceptions.py] a handler for [ClinicaIOException] covers the
    seven errors derived from it and the class itself; the argument and the
    configuration error are [ValueError]s outside that family, and
    [DownloadError] is in neither.  Every class is an [Exception], and no
    chain of bases is longer than the three steps that the subclass test
    follows. *)
Theorem exception_families (c : ExceptionClass.t) :
  ExceptionClass.height 18 c <= 3
  /\ ExceptionClass.issubclass c ExceptionClass.Exception = true
  /\ (In c ExceptionClass.defined ->
      ExceptionClass.issubclass c ExceptionClass.ClinicaIOException
      = negb (existsb (ExceptionClass.eqb c)
                [ExceptionClass.DownloadError;
                 ExceptionClass.ClinicaIOArgumentError;
                 ExceptionClass.ClinicaIOConfigurationError])
      /\ ExceptionClass.issubclass c ExceptionClass.ValueError
         = existsb (ExceptionClass.eqb c)
             [ExceptionClass.ClinicaIOArgumentError;
              ExceptionClass.ClinicaIOConfigurationError]).
Proof.
  split; [destruct c; cbn; repeat constructor|].
  split; [now destruct c|].
  intros Hc. destruct c; split; try reflexivity;
    cbn in Hc; repeat (destruct Hc as [Hc|Hc]; try discriminate Hc);
    contradiction.
Qed.

Lemma exception_families_witness :
  ExceptionClass.issubclass ExceptionClass.ClinicaIOCAPSError
    ExceptionClass.ClinicaIOException = true
  /\ ExceptionClass.issubclass ExceptionClass.ClinicaIOConfigurationError
       ExceptionClass.ClinicaIOException = false.
Proof.
  split.
  - rewrite (proj1 (proj2 (proj2
      (exception_families ExceptionClass.ClinicaIOCAPSError))
      ltac:(cbn; tauto))).
    reflexivity.
  - rewrite (proj1 (proj2 (proj2
      (exception_families ExceptionClass.ClinicaIOConfigurationError))
      ltac:(cbn; tauto))).
    reflexivity.
Defined.

Lemma get_preprocessing_raise x e :
  get_preprocessing x = Raise e -> exists msg, e = ValueError msg.
Proof.
  unfold get_preprocessing.
  destruct (Preprocessing.call x) as [p|e'] eqn:Hc; cbn [bind].
  - destruct p; cbn; intros [= <-]; now eexists.
  - intros [= <-]. destruct x as [s|p]; [|discriminate Hc].
    unfold Preprocessing.call in Hc.
    destruct (find _ Preprocessing.members); [discriminate Hc|].
    injection Hc as <-. now eexists.
Qed.

(** X9.  None of the exceptions that the file type, the builders and the
    registry raise belongs to the family of [ClinicaIOException]: a
    rejected pattern is a [ValueError], except the empty one, which escapes
    a handler for [ValueError]; the builders and [file_type] raise
    [NotImplementedError] only, which such a handler does not cover either;
    the registry raises [ValueError] only. *)
Theorem raised_exception_classes (E : EnumModule) (e : exception) :
  (forall p d np, FileTypeModel.new p d np = Raise e ->
     ExceptionClass.caught_by ExceptionClass.ClinicaIOException e = false
     /\ ExceptionClass.caught_by ExceptionClass.ValueError e
        = negb (String.eqb p ""))
  /\ (forall self reconstruction,
        bids_nii self reconstruction = Raise e \/ file_type E self = Raise e ->
        ExceptionClass.class_of e = ExceptionClass.NotImplementedError
        /\ ExceptionClass.caught_by ExceptionClass.ClinicaIOException e = false
        /\ ExceptionClass.caught_by ExceptionClass.ValueError e = false)
  /\ (forall self, get_filetype E self <> Raise e /\ linear_nii E self <> Raise e)
  /\ (forall x, get_preprocessing x = Raise e ->
        ExceptionClass.class_of e = ExceptionClass.ValueError
        /\ ExceptionClass.caught_by ExceptionClass.ClinicaIOException e = false).
Proof.
  split; [|split; [|split]].
  - intros p d np. destruct p as [|c v]; [now intros [= <-]|].
    rewrite new_nonempty. destruct (Ascii.eqb c "/"); [|discriminate].
    now intros [= <-].
  - intros self reconstruction [H|H].
    + apply bids_nii_raise in H as [_ ->]. now repeat split.
    + apply file_type_raise in H as (_ & _ & ->). now repeat split.
  - intros self. split; intros H.
    + pose proof (get_filetype_ok E self) as Hok. rewrite H in Hok.
      discriminate Hok.
    + unfold linear_nii in H. destruct (caps_nii self) as [p m].
      discriminate H.
  - intros x H. apply get_preprocessing_raise in H as [msg ->]. now split.
Qed.

Lemma raised_exception_classes_witness :
  ExceptionClass.caught_by ExceptionClass.ValueError
    (IndexError "string index out of range") = false
  /\ ExceptionClass.caught_by ExceptionClass.ClinicaIOException
       (ValueError "Preprocessing t2-linear is not implemented.") = false.
Proof.
  split.
  - rewrite (proj2 (proj1 (raised_exception_classes sample_enum
                             (IndexError "string index out of range"))
                      "" "d" None eq_refl)).
    reflexivity.
  - apply (proj2 (proj2 (proj2
      (raised_exception_classes sample_enum
         (ValueError "Preprocessing t2-linear is not implemented.")))))
      with (x := Preprocessing.OfEnum Preprocessing.T2_LINEAR).
    reflexivity.
Defined.

(** * The derived-layout patterns *)

Lemma prefix_append (n b : string) : String.prefix n (n ++ b) = true.
Proof.
  induction n as [|x n IH]; cbn; [now destruct b|].
  destruct (ascii_dec x x) as [_|Hne]; [exact IH|now elim Hne].
Qed.

Lemma contains_prefix (n s : string) :
  String.prefix n s = true -> contains n s = true.
Proof.
  intros H. destruct s as [|c s].
  - cbn [contains]. now rewrite H.
  - change (contains n (String c s))
      with (String.prefix n (String c s) || contains n s).
    now rewrite H.
Qed.

(** A text contains each of the pieces it is made of. *)
Lemma contains_middle (n a b : string) : contains n (a ++ n ++ b) = true.
Proof. apply contains_app_r, contains_prefix, prefix_append. Qed.

Section DerivedPatterns.

Variable E : EnumModule.

Lemma linear_nii_value self :
  linear_nii E self
  = Ok (mkFileType
          ("*space-MNI152NLin2009cSym"
           ++ (if use_uncropped_image (fields self) then "" else crop_qualifier)
           ++ "_res-1x1x1_" ++ Modality_value E (snd (caps_nii self))
           ++ ".nii.gz")
          ((Modality_value E (snd (caps_nii self))
            ++ " Image registered in MNI152NLin2009cSym space using "
            ++ Preprocessing.value (preprocessing (fields self)) ++ " pipeline ")
           ++ (if use_uncropped_image (fields self) then ""
               else crop_dimension_text))
          (Some (Preprocessing.value (preprocessing (fields self))))).
Proof. now destruct self. Qed.

(** X10.  For every configuration the linear builder succeeds and records
    the string of the instance's own [preprocessing] field as the needed
    pipeline; when the string of the modality tag is alphanumeric, the crop
    qualifier is in the pattern and the crop-dimension text in the
    description exactly when [use_uncropped_image] is not set.  The FLAIR
    and T2 configurations take it as their derived-layout builder, as the
    T1 one does. *)
Theorem linear_nii_crop (self : PreprocessingConfig) :
  all_chars is_alnum (Modality_value E (snd (caps_nii self))) = true ->
  exists ft,
    linear_nii E self = Ok ft
    /\ needed_pipeline ft
       = Some (Preprocessing.value (preprocessing (fields self)))
    /\ contains crop_qualifier (pattern ft)
       = negb (use_uncropped_image (fields self))
    /\ contains crop_dimension_text (description ft)
       = negb (use_uncropped_image (fields self))
    /\ (forall b, self = FlairPreprocessingConfig b
                  \/ self = T2PreprocessingConfig b
                  \/ self = T1PreprocessingConfig b ->
        get_filetype E self = Ok ft).
Proof.
  intros Hv. eexists. split; [apply linear_nii_value|].
  cbn [pattern description needed_pipeline]. split; [reflexivity|].
  split; [|split].
  - destruct (use_uncropped_image (fields self)); cbn [negb].
    + now apply uncropped_pattern.
    + apply cropped_pattern.
  - destruct (use_uncropped_image (fields self)); cbn [negb].
    + now apply uncropped_description.
    + apply cropped_description.
  - intros b [->|[->| ->]]; apply linear_nii_value.
Qed.

Lemma PET_get_filetype_value b t r :
  get_filetype E (PETPreprocessingConfig b t r)
  = Ok (mkFileType
          ("pet_linear/*_trc-" ++ Tracer.value t ++ "_space-MNI152NLin2009cSym"
           ++ (if use_uncropped_image b then "" else crop_qualifier)
           ++ "_res-1x1x1_suvr-" ++ SUVRReferenceRegions.value r
           ++ "_pet.nii.gz")
          "" (Some "pet-linear")).
Proof. reflexivity. Qed.

(** X11.  The derived-layout file type of a PET configuration has an empty
    description and always needs [pet-linear], whatever the [preprocessing]
    field holds; its pattern carries the tracer string after [_trc-] and
    the string of the reference region after [_suvr-].  When both strings
    are alphanumeric, the crop qualifier is in the pattern exactly when
    [use_uncropped_image] is not set. *)
Theorem PET_get_filetype_pattern (b : BaseFields) (t : Tracer.t)
    (r : SUVRReferenceRegions.t) :
  exists ft,
    get_filetype E (PETPreprocessingConfig b t r) = Ok ft
    /\ description ft = ""
    /\ needed_pipeline ft = Some "pet-linear"
    /\ contains ("_trc-" ++ Tracer.value t ++ "_space-") (pattern ft) = true
    /\ contains ("_suvr-" ++ SUVRReferenceRegions.value r ++ "_pet.nii.gz")
         (pattern ft) = true
    /\ (all_chars is_alnum (Tracer.value t) = true ->
        all_chars is_alnum (SUVRReferenceRegions.value r) = true ->
        contains crop_qualifier (pattern ft) = negb (use_uncropped_image b)).
Proof.
  eexists. split; [apply PET_get_filetype_value|].
  cbn [pattern description needed_pipeline].
  split; [reflexivity|]. split; [reflexivity|]. split; [|split].
  - replace ("pet_linear/*_trc-" ++ Tracer.value t ++ "_space-MNI152NLin2009cSym"
             ++ (if use_uncropped_image b then "" else crop_qualifier)
             ++ "_res-1x1x1_suvr-" ++ SUVRReferenceRegions.value r
             ++ "_pet.nii.gz")
      with ("pet_linear/*" ++ ("_trc-" ++ Tracer.value t ++ "_space-")
            ++ "MNI152NLin2009cSym"
            ++ (if use_uncropped_image b then "" else crop_qualifier)
            ++ "_res-1x1x1_suvr-" ++ SUVRReferenceRegions.value r
            ++ "_pet.nii.gz")
      by (cbn; now rewrite !append_assoc).
    apply contains_middle.
  - replace ("pet_linear/*_trc-" ++ Tracer.value t ++ "_space-MNI152NLin2009cSym"
             ++ (if use_uncropped_image b then "" else crop_qualifier)
             ++ "_res-1x1x1_suvr-" ++ SUVRReferenceRegions.value r
             ++ "_pet.nii.gz")
      with (("pet_linear/*_trc-" ++ Tracer.value t ++ "_space-MNI152NLin2009cSym"
             ++ (if use_uncropped_image b then "" else crop_qualifier)
             ++ "_res-1x1x1")
            ++ ("_suvr-" ++ SUVRReferenceRegions.value r ++ "_pet.nii.gz") ++ "").
    + apply contains_middle.
    + destruct (use_uncropped_image b); cbn; rewrite !append_assoc; cbn;
        f_equal; f_equal; f_equal; now rewrite append_assoc.
  - intros Ht Hr.
    assert (Ht' : mem_char "_" (Tracer.value t) = false)
      by now apply (all_chars_mem_char is_alnum).
    assert (Hr' : mem_char "_" (SUVRReferenceRegions.value r) = false)
      by now apply (all_chars_mem_char is_alnum).
    destruct (use_uncropped_image b); cbn [negb].
    + simpl. unfold crop_qualifier.
      rewrite (contains_skip "_" "desc-Crop" _ _ Ht'). simpl.
      rewrite (contains_skip "_" "desc-Crop" _ _ Hr'). reflexivity.
    + simpl. unfold crop_qualifier.
      rewrite (contains_skip "_" "desc-Crop" _ _ Ht'). reflexivity.
Qed.

End DerivedPatterns.

Lemma linear_nii_crop_witness :
  exists ft,
    linear_nii sample_enum
      (instantiate sample_enum FlairPreprocessingConfig_cls) = Ok ft
    /\ needed_pipeline ft = Some "flair-linear"
    /\ contains crop_qualifier (pattern ft) = true
    /\ contains crop_dimension_text (description ft) = true
    /\ (forall b,
          instantiate sample_enum FlairPreprocessingConfig_cls
          = FlairPreprocessingConfig b
          \/ instantiate sample_enum FlairPreprocessingConfig_cls
             = T2PreprocessingConfig b
          \/ instantiate sample_enum FlairPreprocessingConfig_cls
             = T1PreprocessingConfig b ->
          get_filetype sample_enum
            (instantiate sample_enum FlairPreprocessingConfig_cls) = Ok ft).
Proof.
  apply (linear_nii_crop sample_enum
           (instantiate sample_enum FlairPreprocessingConfig_cls)).
  reflexivity.
Defined.

Lemma PET_get_filetype_pattern_witness :
  exists ft,
    get_filetype sample_enum
      (instantiate sample_enum PETPreprocessingConfig_cls) = Ok ft
    /\ pattern ft
       = "pet_linear/*_trc-18FFDG_space-MNI152NLin2009cSym_desc-Crop_res-1x1x1_suvr-cerebellumPons2_pet.nii.gz"
    /\ contains crop_qualifier (pattern ft) = true.
Proof.
  destruct (PET_get_filetype_pattern sample_enum
              (mkBaseFields false Preprocessing.PET_LINEAR false)
              (Tracer.mk "18FFDG") (SUVRReferenceRegions.mk "cerebellumPons2"))
    as (ft & Hft & _ & _ & _ & _ & Hcrop).
  exists ft. split; [exact Hft|]. split.
  - change (get_filetype sample_enum
              (PETPreprocessingConfig
                 (mkBaseFields false Preprocessing.PET_LINEAR false)
                 (Tracer.mk "18FFDG")
                 (SUVRReferenceRegions.mk "cerebellumPons2")))
      with (Ok (mkFileType
                  "pet_linear/*_trc-18FFDG_space-MNI152NLin2009cSym_desc-Crop_res-1x1x1_suvr-cerebellumPons2_pet.nii.gz"
                  "" (Some "pet-linear"))) in Hft.
    now injection Hft as <-.
  - exact (Hcrop eq_refl eq_refl).
Defined.

(** * The reader's other paths *)

(** Joining a string is joining the path that the string stands for. *)
Lemma joinpath_parse (self : PurePath.t) (key : string) :
  (self / key)%path = joinpath_path self (PurePath.parse key).
Proof.
  unfold PurePath.joinpath, joinpath_path, PurePath.parse, PurePath.splitroot,
    startswith.
  destruct key as [|c key]; [reflexivity|]. cbn [String.prefix negb].
  destruct (ascii_dec "/" c) as [<-|]; [|reflexivity].
  assert (Hk : String.prefix "" key = true) by now destruct key.
  rewrite Hk. cbn [negb].
  now destruct (negb _ || _).
Qed.

(** After the replacement the replaced character is gone. *)
Lemma map_chars_removes (x y : ascii) (s : string) :
  x <> y ->
  mem_char x (map_chars (fun c => if Ascii.eqb c x then y else c) s) = false.
Proof.
  intros Hxy. induction s as [|c s IH]; [reflexivity|].
  cbn [map_chars mem_char]. rewrite IH, orb_false_r.
  destruct (Ascii.eqb_spec c x) as [->|Hc].
  - now apply Ascii.eqb_neq.
  - apply Ascii.eqb_neq. congruence.
Qed.

Lemma compute_folder_caps_no_hyphen (self : PreprocessingConfig) :
  mem_char "-" (compute_folder self false) = false.
Proof.
  unfold compute_folder. rewrite replace_char.
  now apply map_chars_removes.
Qed.

Lemma get_filetype_set_from_bids E v self :
  get_filetype E (set_from_bids v self) = get_filetype E self.
Proof. now destruct self. Qed.

Section ReaderPaths.

Variable E : EnumModule.
Variables File Subjects Sessions Files Diagnostics : Type.
Variable container_from_filename : File -> result PurePath.t.
Variable get_subject_session_list :
  PurePath.t -> option PurePath.t -> bool -> bool -> option string ->
  result (Subjects * Sessions).
Variable clinicadl_file_reader :
  Subjects -> Sessions -> PurePath.t -> FileType ->
  result (Files * Diagnostics).

(** X12.  [tensor_dir] raises what [container_from_filename] raises.  When
    that returns a relative container, the directory is the input directory
    followed by the container, [deeplearning_prepare_data], [image_based]
    and the underscore form of the pipeline tag; an absolute container
    takes the place of the input directory.  The last name has no hyphen,
    and it is the last name of [preprocessing_folder] for the tag of the
    configuration. *)
Theorem tensor_dir_layout (self : CapsReader) (file : File)
    (cfg : PreprocessingConfig) :
  (forall e, container_from_filename file = Raise e ->
     tensor_dir File container_from_filename self file cfg = Raise e)
  /\ (forall c, container_from_filename file = Ok c ->
      exists p,
        tensor_dir File container_from_filename self file cfg = Ok p
        /\ (PurePath.root c = "" ->
            p = PurePath.mk (PurePath.root (input_directory self))
                  (PurePath.tail (input_directory self) ++ PurePath.tail c
                   ++ tensor_dir_names cfg))
        /\ (PurePath.root c <> "" ->
            p = PurePath.mk (PurePath.root c) (PurePath.tail c ++ tensor_dir_names cfg))
        /\ mem_char "-" (last (PurePath.tail p) "") = false
        /\ forall subject session,
             last (PurePath.tail p) ""
             = last (PurePath.tail
                       (preprocessing_folder self subject session
                          (preprocessing (fields cfg)))) "").
Proof.
  unfold tensor_dir. split; [now intros e ->|]. intros c ->. cbn [bind].
  destruct (tag_folder_name (preprocessing (fields cfg))) as [Htag Hnames].
  eexists. split; [reflexivity|].
  fold (compute_folder cfg false) in Htag, Hnames.
  rewrite (joinpath_relative _ _ Htag), Hnames.
  rewrite (joinpath_relative _ "image_based" eq_refl).
  rewrite (joinpath_relative _ "deeplearning_prepare_data" eq_refl).
  cbn [PurePath.root PurePath.tail].
  change (PurePath.names "image_based") with ["image_based"].
  change (PurePath.names "deeplearning_prepare_data")
    with ["deeplearning_prepare_data"].
  rewrite <- !app_assoc. cbn [app]. fold (tensor_dir_names cfg).
  split; [|split; [|split]].
  - intros Hc. unfold joinpath_path. rewrite Hc. cbn.
    now rewrite <- app_assoc.
  - intros Hc. unfold joinpath_path.
    destruct (String.eqb_spec (PurePath.root c) ""); [contradiction|reflexivity].
  - unfold tensor_dir_names.
    change ["deeplearning_prepare_data"; "image_based"; compute_folder cfg false]
      with (["deeplearning_prepare_data"; "image_based"]
            ++ [compute_folder cfg false])%list.
    rewrite app_assoc, last_last. apply compute_folder_caps_no_hyphen.
  - intros subject session. unfold preprocessing_folder.
    rewrite (joinpath_relative _ _ Htag), Hnames. cbn [PurePath.tail].
    unfold tensor_dir_names.
    change ["deeplearning_prepare_data"; "image_based"; compute_folder cfg false]
      with (["deeplearning_prepare_data"; "image_based"]
            ++ [compute_folder cfg false])%list.
    now rewrite app_assoc, !last_last.
Qed.

(** X13.  [get_input_files] asks for the subjects and sessions first, then
    hands the file reader the file type of the derived-layout builder, which
    never fails, and returns the first component of what the reader finds:
    it raises only what these two functions raise.  It does not read
    [from_bids]: a configuration gives the same files with the field set
    or not. *)
Theorem get_input_files_derived_layout (self : CapsReader)
    (cfg : PreprocessingConfig) (data_tsv : option PurePath.t) :
  exists ft,
    get_filetype E cfg = Ok ft
    /\ get_input_files E Subjects Sessions Files Diagnostics
         get_subject_session_list clinicadl_file_reader self cfg data_tsv
       = (ss <- get_subject_session_list (input_directory self) data_tsv
                  false false None ;;
          found <- clinicadl_file_reader (fst ss) (snd ss)
                     (input_directory self) ft ;;
          Ok (fst found))
    /\ forall v,
         get_input_files E Subjects Sessions Files Diagnostics
           get_subject_session_list clinicadl_file_reader self
           (set_from_bids v cfg) data_tsv
         = get_input_files E Subjects Sessions Files Diagnostics
             get_subject_session_list clinicadl_file_reader self cfg data_tsv.
Proof.
  pose proof (get_filetype_ok E cfg) as Hok.
  destruct (get_filetype E cfg) as [ft|e] eqn:Hft; [|discriminate Hok].
  exists ft. split; [reflexivity|]. unfold get_input_files. split.
  - now rewrite Hft.
  - intros v. now rewrite get_filetype_set_from_bids.
Qed.

End ReaderPaths.

Lemma tensor_dir_layout_witness :
  exists p,
    tensor_dir string (fun _ => Ok (PurePath.parse "subjects/sub-01/ses-M00"))
      (mkCapsReader (PurePath.parse "/data/caps"))
      "sub-01_ses-M00_T1w.nii.gz"
      (T1PreprocessingConfig (mkBaseFields false Preprocessing.T1_LINEAR false))
    = Ok p
    /\ PurePath.as_posix p
       = "/data/caps/subjects/sub-01/ses-M00/deeplearning_prepare_data/image_based/t1_linear".
Proof.
  destruct (proj2 (tensor_dir_layout string
                     (fun _ => Ok (PurePath.parse "subjects/sub-01/ses-M00"))
                     (mkCapsReader (PurePath.parse "/data/caps"))
                     "sub-01_ses-M00_T1w.nii.gz"
                     (T1PreprocessingConfig
                        (mkBaseFields false Preprocessing.T1_LINEAR false)))
              (PurePath.parse "subjects/sub-01/ses-M00") eq_refl)
    as (p & Hp & Hrel & _).
  exists p. split; [exact Hp|]. rewrite (Hrel eq_refl). reflexivity.
Defined.
